(** * webpack.config.js: the build configuration of excel-course

    A shallow embedding of [webpack.config.js].  The file is one Node
    module: it reads [process.env.NODE_ENV], derives the two flags
    [isProd] / [isDev], and evaluates one object literal, [module.exports],
    whose option values are conditional expressions over those flags.

    What the module reads from its host is taken as the variables of
    [Section Config]: the environment entry [NODE_ENV] (a string, or
    [None] for [undefined]), the directory [__dirname] and Node's
    [path.resolve].  Strings are sequences of 8-bit characters. *)

From Stdlib Require Import Ascii ZArith Bool.
From stdpp Require Import gmap strings list fin_maps.

Local Open Scope Z_scope.

(** ** Regular expression literals

    The three literals of the file, [/\.s[ac]ss$/i], [/\.js$/] and
    [/node_modules/], are sequences of one-character atoms (a literal
    character or a bracket class), optionally closed by [$], optionally
    with the [i] flag.  [test] is [RegExp.prototype.test] on such a
    pattern without the [g] and [y] flags: a search from index 0 for the
    first position where the atoms match. *)
Module RegExp.

Inductive Atom : Type :=
| Lit (c : ascii)
| Class (cs : list ascii).

Record t : Type := mk {
  atoms : list Atom;
  dollar : bool;      (* the pattern ends with the assertion $ *)
  ignoreCase : bool   (* flag i *)
}.

(** Canonicalize of the specification of RegExp, on the characters the
    patterns can equal: with [i] a lower-case ASCII letter stands for its
    upper-case letter; a character outside a-z is never mapped onto an
    ASCII character, so it is left as it is. *)
Definition canonicalize (ic : bool) (c : ascii) : ascii :=
  let n := N_of_ascii c in
  if ic && (97 <=? n)%N && (n <=? 122)%N then ascii_of_N (n - 32) else c.

Definition char_eq (ic : bool) (a b : ascii) : bool :=
  Ascii.eqb (canonicalize ic a) (canonicalize ic b).

Definition atom_matches (ic : bool) (a : Atom) (c : ascii) : bool :=
  match a with
  | Lit x => char_eq ic x c
  | Class xs => existsb (fun x => char_eq ic x c) xs
  end.

(** The atoms match a prefix of [s]; with [$] the prefix is all of [s]. *)
Fixpoint match_here (ic dol : bool) (ats : list Atom) (s : list ascii) : bool :=
  match ats with
  | [] => if dol then (if s is [] then true else false) else true
  | a :: ats' =>
      match s with
      | [] => false
      | c :: s' => atom_matches ic a c && match_here ic dol ats' s'
      end
  end.

(** The search loop: try index 0, then the rest of the input. *)
Fixpoint search (ic dol : bool) (ats : list Atom) (s : list ascii) : bool :=
  match_here ic dol ats s ||
  match s with
  | [] => false
  | _ :: s' => search ic dol ats s'
  end.

Definition test (r : t) (s : string) : bool :=
  search (ignoreCase r) (dollar r) (atoms r) (String.list_ascii_of_string s).

Definition lits (s : string) : list Atom :=
  map Lit (String.list_ascii_of_string s).

(** [m] is matched by the atoms, one character per atom. *)
Definition matched (ic : bool) (ats : list Atom) (m : list ascii) : Prop :=
  Forall2 (fun a c => atom_matches ic a c = true) ats m.

End RegExp.

(** ** The shape of the configuration object *)

Record Output : Type := {
  filename : string;
  path : string
}.

Record Resolve : Type := {
  extensions : list string;
  alias : gmap string string
}.

(** [devtool] is either a string or [false]. *)
Inductive Devtool : Type :=
| DevtoolName (s : string)
| DevtoolFalse.

Record DevServer : Type := {
  port : Z;
  hot : bool
}.

Record Minify : Type := {
  removeComments : bool;
  collapseWhitespace : bool
}.

Record CopyPattern : Type := {
  from : string;
  to : string
}.

(** The four plugin instances, by constructor and constructor argument. *)
Inductive Plugin : Type :=
| CleanWebpackPlugin
| HTMLWebpackPlugin (template : string) (minify : Minify)
| CopyPlugin (patterns : list CopyPattern)
| MiniCssExtractPlugin (filename : string).

(** A loader is named by a string, except [MiniCssExtractPlugin.loader],
    a static property of the plugin's class. *)
Inductive LoaderRef : Type :=
| LoaderName (name : string)
| MiniCssExtractPlugin_loader.

Inductive LoaderOptions : Type :=
| BabelOptions (presets : list string)
| ExtractOptions (hmr : bool) (reloadAll : bool).

(** An element of a rule's [use] array: a bare string, or an object with
    [loader] and [options]. *)
Inductive UseEntry : Type :=
| UseString (name : string)
| UseObject (loader : LoaderRef) (options : LoaderOptions).

Record Rule : Type := {
  test : RegExp.t;
  exclude : option RegExp.t;
  use : list UseEntry
}.

Record Configuration : Type := {
  context : string;
  mode : string;
  entry : list string;
  output : Output;
  resolve : Resolve;
  devtool : Devtool;
  devServer : DevServer;
  plugins : list Plugin;
  module_rules : list Rule
}.

(** The literals of the two rules. *)
Definition re_style : RegExp.t :=                  (* /\.s[ac]ss$/i *)
  RegExp.mk (RegExp.lits ".s" ++ [RegExp.Class ["a"; "c"]%char] ++ RegExp.lits "ss")
            true true.

Definition re_js : RegExp.t :=                     (* /\.js$/ *)
  RegExp.mk (RegExp.lits ".js") true false.

Definition re_node_modules : RegExp.t :=           (* /node_modules/ *)
  RegExp.mk (RegExp.lits "node_modules") false false.

(** ** The module *)
Section Config.

Variable NODE_ENV : option string.
Variable __dirname : string.
Variable path_resolve : string -> string -> string.

(** [process.env.NODE_ENV === "production"]: strict equality, false for
    [undefined]. *)
Definition isProd : bool :=
  match NODE_ENV with
  | Some s => String.eqb s "production"
  | None => false
  end.

Definition isDev : bool := negb isProd.

Definition fileName (ext : string) : string :=
  if isDev then "bundle." +:+ ext else "bundle.[hash]." +:+ ext.

(** The array literal, then [push] under [isDev]: [push] adds at the end. *)
Definition jsLoaders : list UseEntry :=
  let loaders :=
    [UseObject (LoaderName "babel-loader") (BabelOptions ["@babel/preset-env"])] in
  let loaders :=
    if isDev then loaders ++ [UseString "eslint-loader"] else loaders in
  loaders.

Definition module_exports : Configuration := {|
  context := path_resolve __dirname "src";
  mode := "development";
  entry := ["@babel/polyfill"; "./index.js"];
  output := {|
    filename := fileName "js";
    path := path_resolve __dirname "dist"
  |};
  resolve := {|
    extensions := [".js"];
    alias := <["@" := path_resolve __dirname "src"]>
             (<["@core" := path_resolve __dirname "src/core"]> ∅)
  |};
  devtool := if isDev then DevtoolName "source-map" else DevtoolFalse;
  devServer := {| port := 3000; hot := isDev |};
  plugins := [
    CleanWebpackPlugin;
    HTMLWebpackPlugin "index.html"
      {| removeComments := isProd; collapseWhitespace := isProd |};
    CopyPlugin [ {| from := path_resolve __dirname "src/favicon.ico";
                    to := path_resolve __dirname "dist" |} ];
    MiniCssExtractPlugin (fileName "css")
  ];
  module_rules := [
    {| test := re_style;
       exclude := None;
       use := [ UseObject MiniCssExtractPlugin_loader (ExtractOptions isDev true);
                UseString "css-loader";
                UseString "sass-loader" ] |};
    {| test := re_js;
       exclude := Some re_node_modules;
       use := jsLoaders |}
  ]
|}.

End Config.

(** ** The vocabulary of the specification

    [resolveMode] is the flag [isProd] read as a build mode.  [nameFor] is
    [fileName] at the extension of the artifact: the mode it depends on is
    the module's flag, and the build hash is not among the arguments of
    [fileName], so [nameFor] does not look at it.  A call completes
    normally or throws. *)

Inductive BuildMode : Type := Development | Production.

Inductive ArtifactKind : Type := Script | Style.

Inductive completion (A : Type) : Type :=
| Normal (v : A)
| Throw (reason : string).
Arguments Normal {A} v.
Arguments Throw {A} reason.

Definition resolveMode (signal : option string) : BuildMode :=
  if isProd signal then Production else Development.

(** [fileName("js")] names the script bundle, [fileName("css")] the style
    bundle. *)
Definition extension (kind : ArtifactKind) : string :=
  match kind with
  | Script => "js"
  | Style => "css"
  end.

Definition nameFor (signal : option string) (kind : ArtifactKind)
    (buildHash : option string) : completion string :=
  Normal (fileName signal (extension kind)).

(** The values webpack accepts for [mode] that name a build mode. *)
Definition mode_of_string (s : string) : option BuildMode :=
  if String.eqb s "development" then Some Development
  else if String.eqb s "production" then Some Production
  else None.

Definition plugin_name (p : Plugin) : string :=
  match p with
  | CleanWebpackPlugin => "CleanWebpackPlugin"
  | HTMLWebpackPlugin _ _ => "HTMLWebpackPlugin"
  | CopyPlugin _ => "CopyPlugin"
  | MiniCssExtractPlugin _ => "MiniCssExtractPlugin"
  end.

(** A host for closed examples: a POSIX [path.resolve] applied to an
    absolute directory and a relative path without dots. *)
Definition posix_resolve (dir rel : string) : string := dir +:+ "/" +:+ rel.

Definition exports_at (signal : option string) : Configuration :=
  module_exports signal "/excel-course" posix_resolve.

(** The part of a configuration that no flag reaches: the seven option
    values that are conditional expressions over [isProd] / [isDev] are
    blanked (the two bundle names, [devtool], [devServer.hot], the two
    [minify] flags, [hmr]) and the pushed lint loader is dropped. *)
Definition is_lint (u : UseEntry) : bool :=
  match u with
  | UseString name => String.eqb name "eslint-loader"
  | UseObject _ _ => false
  end.

Definition use_frame (u : UseEntry) : UseEntry :=
  match u with
  | UseObject l (ExtractOptions _ r) => UseObject l (ExtractOptions false r)
  | _ => u
  end.

Definition rule_frame (r : Rule) : Rule := {|
  test := test r;
  exclude := exclude r;
  use := map use_frame (List.filter (fun u => negb (is_lint u)) (use r))
|}.

Definition plugin_frame (p : Plugin) : Plugin :=
  match p with
  | HTMLWebpackPlugin t _ =>
      HTMLWebpackPlugin t {| removeComments := false; collapseWhitespace := false |}
  | MiniCssExtractPlugin _ => MiniCssExtractPlugin ""
  | _ => p
  end.

Definition frame (c : Configuration) : Configuration := {|
  context := context c;
  mode := mode c;
  entry := entry c;
  output := {| filename := ""; path := path (output c) |};
  resolve := resolve c;
  devtool := DevtoolFalse;
  devServer := {| port := port (devServer c); hot := false |};
  plugins := map plugin_frame (plugins c);
  module_rules := map rule_frame (module_rules c)
|}.

(** A name carries the placeholder when [[hash]] occurs in it. *)
Definition has_placeholder (s : string) : Prop :=
  exists p q : string, s = p +:+ "[hash]" +:+ q.

(** A name with its letters a-z in upper case. *)
Definition upcase (s : string) : string :=
  String.string_of_list_ascii
    (map (RegExp.canonicalize true) (String.list_ascii_of_string s)).

(** * Properties *)

(** ** Matching *)
Module RegExpFacts.
Import RegExp.

Lemma match_here_spec ic dol ats s :
  match_here ic dol ats s = true <->
  exists m q, s = m ++ q /\ matched ic ats m /\ (dol = true -> q = []).
Proof.
  revert s. induction ats as [|a ats IH]; intros s; simpl.
  - split.
    + intros H. exists [], s. repeat split; [constructor|].
      intros ->. destruct s; [done|discriminate].
    + intros (m & q & -> & Hm & Hq). inversion Hm; subst. simpl.
      destruct dol; [|done]. rewrite Hq; done.
  - destruct s as [|c s].
    + split; [discriminate|].
      intros (m & q & Hs & Hm & _). inversion Hm; subst. discriminate.
    + rewrite andb_true_iff, IH. split.
      * intros (Ha & m & q & -> & Hm & Hq).
        exists (c :: m), q. repeat split; [by constructor|done].
      * intros (m & q & Hs & Hm & Hq). inversion Hm as [|? c' ? m' Ha Hm']; subst.
        simpl in Hs. injection Hs as -> ->. split; [done|]. by exists m', q.
Qed.

Lemma search_spec ic dol ats s :
  search ic dol ats s = true <->
  exists p m q, s = p ++ m ++ q /\ matched ic ats m /\ (dol = true -> q = []).
Proof.
  induction s as [|c s IH]; simpl; rewrite orb_true_iff, match_here_spec.
  - split.
    + intros [(m & q & Hs & H)|]; [|discriminate]. by exists [], m, q.
    + intros (p & m & q & Hs & H). left.
      symmetry in Hs. apply app_eq_nil in Hs as [-> Hs]. by exists m, q.
  - rewrite IH. split.
    + intros [(m & q & Hs & H)|(p & m & q & -> & H)].
      * by exists [], m, q.
      * by exists (c :: p), m, q.
    + intros (p & m & q & Hs & H). destruct p as [|c' p].
      * left. by exists m, q.
      * right. simpl in Hs. injection Hs as -> ->. by exists p, m, q.
Qed.

(** Strings and their characters. *)
Lemma chars_app (a b : string) :
  String.list_ascii_of_string (a +:+ b) =
  String.list_ascii_of_string a ++ String.list_ascii_of_string b.
Proof. induction a as [|c a IH]; simpl; [done|by rewrite IH]. Qed.

Lemma of_chars_app (a b : list ascii) :
  String.string_of_list_ascii (a ++ b) =
  String.string_of_list_ascii a +:+ String.string_of_list_ascii b.
Proof. induction a as [|c a IH]; simpl; [done|by rewrite IH]. Qed.

Lemma chars_inj (a b : string) :
  String.list_ascii_of_string a = String.list_ascii_of_string b -> a = b.
Proof.
  intros H. rewrite <- (String.string_of_list_ascii_of_string a),
    <- (String.string_of_list_ascii_of_string b). by rewrite H.
Qed.

(** Without [i] a character matches itself only. *)
Lemma char_eq_case a c : char_eq false a c = true <-> a = c.
Proof. unfold char_eq, canonicalize. simpl. apply Ascii.eqb_eq. Qed.

Lemma matched_lits (w : string) m :
  matched false (lits w) m <-> m = String.list_ascii_of_string w.
Proof.
  unfold matched, lits. revert m.
  induction (String.list_ascii_of_string w) as [|a l IH]; intros m; simpl.
  - split; [by inversion 1|intros ->; constructor].
  - split.
    + inversion 1 as [|? c ? m' Ha Hm]; subst.
      simpl in Ha. apply char_eq_case in Ha as ->. f_equal. by apply IH.
    + intros ->. constructor; [by apply char_eq_case|by apply IH].
Qed.

(** With [i] a letter matches its two cases, a dot matches a dot. *)
Ltac by_cases c :=
  destruct c as [[] [] [] [] [] [] [] []]; vm_compute;
  split; intros H; first [discriminate H | tauto | idtac];
  repeat (destruct H as [H|H]); first [discriminate H | reflexivity].

Lemma char_eq_dot c : char_eq true "." c = true <-> c = "."%char.
Proof.
  destruct c as [[] [] [] [] [] [] [] []]; vm_compute;
    split; intros H; first [discriminate H | reflexivity].
Qed.

Lemma char_eq_s c : char_eq true "s" c = true <-> c = "s"%char \/ c = "S"%char.
Proof. by_cases c. Qed.

Lemma char_eq_a c : char_eq true "a" c = true <-> c = "a"%char \/ c = "A"%char.
Proof. by_cases c. Qed.

Lemma char_eq_c c : char_eq true "c" c = true <-> c = "c"%char \/ c = "C"%char.
Proof. by_cases c. Qed.

(** What [/\.js$/] accepts: the names that end with [.js]. *)
Lemma re_js_spec (s : string) :
  test re_js s = true <-> exists p : string, s = p +:+ ".js".
Proof.
  unfold test. rewrite search_spec. simpl. split.
  - intros (p & m & q & Hs & Hm & Hq). apply matched_lits in Hm as ->.
    rewrite (Hq eq_refl), app_nil_r in Hs.
    exists (String.string_of_list_ascii p). apply chars_inj.
    by rewrite chars_app, String.list_ascii_of_string_of_list_ascii.
  - intros (p & ->). exists (String.list_ascii_of_string p), 
      (String.list_ascii_of_string ".js"), [].
    split; [by rewrite chars_app, app_nil_r|]. split; [by apply matched_lits|done].
Qed.

(** What [/node_modules/] accepts: the names that contain [node_modules]. *)
Lemma re_node_modules_spec (s : string) :
  test re_node_modules s = true <->
  exists p q : string, s = p +:+ "node_modules" +:+ q.
Proof.
  unfold test. rewrite search_spec. simpl. split.
  - intros (p & m & q & Hs & Hm & _). apply matched_lits in Hm as ->.
    exists (String.string_of_list_ascii p), (String.string_of_list_ascii q).
    apply chars_inj.
    by rewrite !chars_app, !String.list_ascii_of_string_of_list_ascii.
  - intros (p & q & ->). exists (String.list_ascii_of_string p), 
      (String.list_ascii_of_string "node_modules"), (String.list_ascii_of_string q).
    split; [by rewrite !chars_app|]. split; [by apply matched_lits|done].
Qed.

(** What the atoms of [/\.s[ac]ss$/i] match: a dot, then [s], [a] or [c],
    [s], [s], each in either case. *)
Lemma re_style_matched m :
  matched true (atoms re_style) m <->
  exists c1 c2 c3 c4 : ascii,
    m = ["."%char; c1; c2; c3; c4] /\
    c1 ∈ ["s"; "S"]%char /\ c2 ∈ ["a"; "A"; "c"; "C"]%char /\
    c3 ∈ ["s"; "S"]%char /\ c4 ∈ ["s"; "S"]%char.
Proof.
  unfold matched.
  change (atoms re_style)
    with [Lit "."; Lit "s"; Class ["a"; "c"]; Lit "s"; Lit "s"]%char.
  split.
  - intros H.
    repeat match goal with
           | H : Forall2 _ (_ :: _) _ |- _ => inversion H; clear H; subst
           | H : Forall2 _ [] _ |- _ => inversion H; clear H; subst
           end.
    simpl in *.
    repeat match goal with
           | H : _ || _ = true |- _ => apply orb_true_iff in H; destruct H
           | H : false = true |- _ => discriminate H
           | H : char_eq true "." _ = true |- _ => apply char_eq_dot in H; subst
           | H : char_eq true "s" _ = true |- _ => apply char_eq_s in H
           | H : char_eq true "a" _ = true |- _ => apply char_eq_a in H
           | H : char_eq true "c" _ = true |- _ => apply char_eq_c in H
           end.
    all: do 4 eexists; (split; [reflexivity|]);
      rewrite !elem_of_cons; intuition (subst; auto).
  - intros (c1 & c2 & c3 & c4 & -> & H1 & H2 & H3 & H4).
    apply list_elem_of_In in H1, H2, H3, H4. simpl in H1, H2, H3, H4.
    intuition subst; repeat constructor.
Qed.

(** What [/\.s[ac]ss$/i] accepts: the names whose last five characters
    are [.sass] or [.scss], in either case. *)
Lemma re_style_spec (s : string) :
  test re_style s = true <->
  exists (p : string) (c1 c2 c3 c4 : ascii),
    s = p +:+ String "." (String c1 (String c2 (String c3 (String c4 "")))) /\
    c1 ∈ ["s"; "S"]%char /\ c2 ∈ ["a"; "A"; "c"; "C"]%char /\
    c3 ∈ ["s"; "S"]%char /\ c4 ∈ ["s"; "S"]%char.
Proof.
  unfold test. rewrite search_spec.
  change (ignoreCase re_style) with true. change (dollar re_style) with true.
  split.
  - intros (p & m & q & Hs & Hm & Hq).
    apply re_style_matched in Hm as (c1 & c2 & c3 & c4 & -> & H).
    rewrite (Hq eq_refl), app_nil_r in Hs.
    exists (String.string_of_list_ascii p), c1, c2, c3, c4. split; [|done].
    apply chars_inj.
    by rewrite chars_app, String.list_ascii_of_string_of_list_ascii.
  - intros (p & c1 & c2 & c3 & c4 & -> & H).
    exists (String.list_ascii_of_string p), ["."%char; c1; c2; c3; c4], [].
    split; [by rewrite chars_app, app_nil_r|].
    split; [|done]. apply re_style_matched. by exists c1, c2, c3, c4.
Qed.

(** No name that ends with [.css] is accepted: the character before
    [css] would have to be an [s]. *)
Lemma re_style_css (p : string) : test re_style (p +:+ ".css") = false.
Proof.
  apply not_true_is_false. intros H.
  apply re_style_spec in H as (p' & c1 & c2 & c3 & c4 & Hs & H1 & _).
  apply (f_equal String.list_ascii_of_string) in Hs.
  rewrite !chars_app in Hs. simpl in Hs.
  assert (Hs' : String.list_ascii_of_string p ++ ["."; "c"; "s"; "s"]%char =
                (String.list_ascii_of_string p' ++ ["."%char]) ++ [c1; c2; c3; c4])
    by (rewrite <- app_assoc; exact Hs).
  clear Hs. apply app_inj_2 in Hs' as [_ Hs]; [|done].
  injection Hs as <- _ _ _.
  apply list_elem_of_In in H1. simpl in H1. intuition discriminate.
Qed.

(** The three patterns on some names. *)
Example re_style_names :
  test re_style "scss/index.scss" = true /\ test re_style "MAIN.SASS" = true /\
  test re_style "main.css" = false /\ test re_style "index.scss.map" = false.
Proof. repeat split. Qed.

Example re_js_names :
  test re_js "./index.js" = true /\ test re_js "index.JS" = false /\
  test re_js "index.json" = false.
Proof. repeat split. Qed.

Example re_node_modules_names :
  test re_node_modules "/app/node_modules/lodash/index.js" = true /\
  test re_node_modules "/app/src/index.js" = false.
Proof. repeat split. Qed.

End RegExpFacts.

(** ** The flags *)

Lemma isDev_isProd signal : isDev signal = negb (isProd signal).
Proof. reflexivity. Qed.

Lemma isProd_true signal : isProd signal = true <-> signal = Some "production".
Proof.
  destruct signal as [s|]; simpl.
  - rewrite String.eqb_eq. split; [by intros ->|by intros [= ->]].
  - split; discriminate.
Qed.

Lemma resolveMode_Production signal :
  resolveMode signal = Production <-> isProd signal = true.
Proof. unfold resolveMode. destruct (isProd signal); split; try done. Qed.

Lemma resolveMode_Development signal :
  resolveMode signal = Development <-> isProd signal = false.
Proof. unfold resolveMode. destruct (isProd signal); split; try done. Qed.

(** C4.  [resolveMode] is total; it gives Production exactly for the signal
    ["production"], and Development for every other string and for the
    absent signal. *)
Theorem resolveMode_total_exact (signal : option string) :
  (resolveMode signal = Production <-> signal = Some "production") /\
  (resolveMode signal = Development <-> signal <> Some "production") /\
  resolveMode None = Development.
Proof.
  split; [|split; [|reflexivity]].
  - by rewrite resolveMode_Production, isProd_true.
  - rewrite resolveMode_Development, <- isProd_true.
    destruct (isProd signal); split; done.
Qed.

(** ** The output names *)

(** C1, as the specification states it, fails: the name of the script
    bundle in production does not carry the hash ["a1b2c3"] that is
    supplied. *)
Lemma nameFor_production_hash_counterexample :
  resolveMode (Some "production") = Production /\
  nameFor (Some "production") Script (Some "a1b2c3") <> Normal "bundle.a1b2c3.js".
Proof. split; [reflexivity|discriminate]. Qed.

(** C1, amended.  In production, for each kind and whatever hash is
    supplied, [nameFor] returns ["bundle.[hash]." ++ extension]: the name
    carries the placeholder [[hash]] as it is written in the source. *)
Theorem nameFor_production_placeholder
    (signal : option string) (kind : ArtifactKind) (buildHash : string) :
  resolveMode signal = Production ->
  nameFor signal kind (Some buildHash) =
    Normal ("bundle.[hash]." +:+ extension kind).
Proof.
  intros H%resolveMode_Production. unfold nameFor, fileName.
  by rewrite isDev_isProd, H.
Qed.

Lemma nameFor_production_placeholder_witness :
  resolveMode (Some "production") = Production /\
  nameFor (Some "production") Script (Some "a1b2c3") = Normal "bundle.[hash].js".
Proof.
  split; [reflexivity|].
  apply (nameFor_production_placeholder (Some "production") Script "a1b2c3").
  reflexivity.
Defined.

(** C2, as the specification states it, fails: in production and without
    a hash the call for the script bundle completes normally. *)
Lemma nameFor_production_no_hash_counterexample :
  resolveMode (Some "production") = Production /\
  ~ (exists reason, nameFor (Some "production") Script None = Throw reason).
Proof. split; [reflexivity|]. intros [reason H]. discriminate H. Qed.

(** C2, amended.  In production and without a hash, for each kind,
    [nameFor] completes normally with ["bundle.[hash]." ++ extension]; it
    throws for no input. *)
Theorem nameFor_production_no_hash_returns
    (signal : option string) (kind : ArtifactKind) :
  resolveMode signal = Production ->
  nameFor signal kind None = Normal ("bundle.[hash]." +:+ extension kind) /\
  (forall signal' kind' buildHash reason,
     nameFor signal' kind' buildHash <> Throw reason).
Proof.
  intros H%resolveMode_Production. split; [|discriminate].
  unfold nameFor, fileName. by rewrite isDev_isProd, H.
Qed.

Lemma nameFor_production_no_hash_returns_witness :
  nameFor (Some "production") Style None = Normal "bundle.[hash].css".
Proof.
  apply (nameFor_production_no_hash_returns (Some "production") Style).
  reflexivity.
Defined.

(** C5.  In development [nameFor] returns ["bundle.js"] for the script
    bundle and ["bundle.css"] for the style bundle, without a hash
    segment; the name is the same for any two development signals and
    any two hash arguments. *)
Theorem nameFor_development_stable
    (signal signal' : option string) (kind : ArtifactKind)
    (buildHash buildHash' : option string) :
  resolveMode signal = Development ->
  resolveMode signal' = Development ->
  nameFor signal kind buildHash =
    Normal (match kind with Script => "bundle.js" | Style => "bundle.css" end) /\
  nameFor signal kind buildHash = Normal ("bundle." +:+ extension kind) /\
  nameFor signal' kind buildHash' = nameFor signal kind buildHash.
Proof.
  intros H%resolveMode_Development H'%resolveMode_Development.
  unfold nameFor, fileName. rewrite !isDev_isProd, H, H'.
  by destruct kind.
Qed.

Lemma nameFor_development_stable_witness :
  nameFor None Style None = Normal "bundle.css" /\
  nameFor (Some "development") Style (Some "a1b2c3") = nameFor None Style None.
Proof.
  destruct (nameFor_development_stable None (Some "development") Style
              None (Some "a1b2c3") eq_refl eq_refl) as (H1 & _ & H3).
  exact (conj H1 H3).
Defined.

(** ** The assembled configuration *)

(** C3, as the specification states it, fails: for the signal
    ["production"] the [mode] field does not name the resolved mode. *)
Lemma mode_field_counterexample :
  resolveMode (Some "production") = Production /\
  mode_of_string (mode (exports_at (Some "production"))) <>
    Some (resolveMode (Some "production")).
Proof. split; [reflexivity|discriminate]. Qed.

(** C3, amended.  For every signal the [mode] field of the configuration
    is the constant ["development"]; it names the mode that the signal
    resolves to exactly when that mode is Development. *)
Theorem mode_field_constant
    (signal : option string) (dir : string) (pr : string -> string -> string) :
  mode (module_exports signal dir pr) = "development" /\
  mode_of_string (mode (module_exports signal dir pr)) = Some Development /\
  (mode_of_string (mode (module_exports signal dir pr)) = Some (resolveMode signal)
   <-> resolveMode signal = Development).
Proof.
  split; [reflexivity|]. split; [reflexivity|].
  change (mode_of_string (mode (module_exports signal dir pr)))
    with (Some Development).
  split; [by intros [= <-]|by intros ->].
Qed.

(** C6, on the code.  The first rule has the pattern [/\.s[ac]ss$/i]: it
    accepts every name that ends with [.sass] or [.scss] and rejects every
    name that ends with [.css].  Its steps are the extraction loader, then
    [css-loader], then [sass-loader], and [hmr] is on exactly in
    development. *)
Theorem style_rule_rejects_css
    (signal : option string) (dir : string) (pr : string -> string -> string) :
  exists r : Rule,
    module_rules (module_exports signal dir pr) !! 0%nat = Some r /\
    (forall p : string, RegExp.test (test r) (p +:+ ".css") = false) /\
    RegExp.test (test r) "main.css" = false /\
    (forall p : string, RegExp.test (test r) (p +:+ ".sass") = true) /\
    (forall p : string, RegExp.test (test r) (p +:+ ".scss") = true) /\
    use r =
      [ UseObject MiniCssExtractPlugin_loader
          (ExtractOptions
             (match resolveMode signal with
              | Development => true
              | Production => false
              end) true);
        UseString "css-loader";
        UseString "sass-loader" ].
Proof.
  eexists. split; [reflexivity|]. cbn [test use].
  split; [exact RegExpFacts.re_style_css|].
  split; [reflexivity|].
  split; [|split].
  - intros p. apply RegExpFacts.re_style_spec.
    exists p, "s"%char, "a"%char, "s"%char, "s"%char.
    split; [done|]. set_solver.
  - intros p. apply RegExpFacts.re_style_spec.
    exists p, "s"%char, "c"%char, "s"%char, "s"%char.
    split; [done|]. set_solver.
  - unfold resolveMode. rewrite isDev_isProd. by destruct (isProd signal).
Qed.

(** C7.  The second rule accepts the names that end with [.js], excludes
    the names that contain [node_modules], and its steps are
    [babel-loader] with the preset [@babel/preset-env], followed by
    [eslint-loader] exactly in development. *)
Theorem script_rule_lint_only_in_development
    (signal : option string) (dir : string) (pr : string -> string -> string) :
  exists (r : Rule) (ex : RegExp.t),
    module_rules (module_exports signal dir pr) !! 1%nat = Some r /\
    (forall s : string,
       RegExp.test (test r) s = true <-> exists p : string, s = p +:+ ".js") /\
    exclude r = Some ex /\
    (forall s : string,
       RegExp.test ex s = true <->
       exists p q : string, s = p +:+ "node_modules" +:+ q) /\
    use r =
      UseObject (LoaderName "babel-loader") (BabelOptions ["@babel/preset-env"])
      :: match resolveMode signal with
         | Development => [UseString "eslint-loader"]
         | Production => []
         end /\
    (UseString "eslint-loader" ∈ use r <-> resolveMode signal = Development).
Proof.
  do 2 eexists. split; [reflexivity|]. cbn [test use exclude].
  split; [exact RegExpFacts.re_js_spec|].
  split; [reflexivity|].
  split; [exact RegExpFacts.re_node_modules_spec|].
  unfold resolveMode, jsLoaders. rewrite isDev_isProd.
  destruct (isProd signal); simpl; (split; [reflexivity|]).
  - rewrite !elem_of_cons, elem_of_nil. split; [|done]. intros [|[]]; done.
  - rewrite !elem_of_cons. split; [done|]. intros _. right. by left.
Qed.

(** C8.  The template plugin is the second plugin and the only one of its
    constructor; [removeComments] and [collapseWhitespace] are on exactly
    in production and off exactly in development. *)
Theorem template_minify_only_in_production
    (signal : option string) (dir : string) (pr : string -> string -> string) :
  exists (t : string) (m : Minify),
    plugins (module_exports signal dir pr) !! 1%nat = Some (HTMLWebpackPlugin t m) /\
    (forall (i : nat) (t' : string) (m' : Minify),
       plugins (module_exports signal dir pr) !! i = Some (HTMLWebpackPlugin t' m') ->
       i = 1%nat) /\
    (removeComments m = true <-> resolveMode signal = Production) /\
    (collapseWhitespace m = true <-> resolveMode signal = Production) /\
    (removeComments m = false <-> resolveMode signal = Development) /\
    (collapseWhitespace m = false <-> resolveMode signal = Development).
Proof.
  do 2 eexists. split; [reflexivity|]. split.
  - intros [|[|[|[|i]]]] t' m' H; try done.
  - cbn [removeComments collapseWhitespace]. unfold resolveMode.
    destruct (isProd signal); repeat split; done.
Qed.

(** C9.  In every mode the clean plugin is the first element of the
    plugin list; the template, copy and style-extraction plugins follow
    it in this order. *)
Theorem clean_plugin_first
    (signal : option string) (dir : string) (pr : string -> string -> string) :
  head (plugins (module_exports signal dir pr)) = Some CleanWebpackPlugin /\
  exists rest : list Plugin,
    plugins (module_exports signal dir pr) = CleanWebpackPlugin :: rest /\
    map plugin_name rest = ["HTMLWebpackPlugin"; "CopyPlugin"; "MiniCssExtractPlugin"].
Proof. split; [reflexivity|]. eexists. split; reflexivity. Qed.

(** C10.  Two configurations assembled for any two signals differ at most
    in the conditional option values: with those blanked they are equal.
    In every mode the entry list is [["@babel/polyfill"; "./index.js"]],
    the port is 3000, the alias map binds exactly ["@"] and ["@core"], and
    the plugin list is the same four plugins in the same order. *)
Theorem mode_changes_only_conditional_options
    (signal signal' : option string) (dir : string)
    (pr : string -> string -> string) :
  frame (module_exports signal dir pr) = frame (module_exports signal' dir pr) /\
  entry (module_exports signal dir pr) = ["@babel/polyfill"; "./index.js"] /\
  port (devServer (module_exports signal dir pr)) = 3000 /\
  dom (alias (resolve (module_exports signal dir pr))) = {["@"; "@core"]} /\
  alias (resolve (module_exports signal dir pr)) !! "@" = Some (pr dir "src") /\
  alias (resolve (module_exports signal dir pr)) !! "@core" = Some (pr dir "src/core") /\
  map plugin_name (plugins (module_exports signal dir pr)) =
    ["CleanWebpackPlugin"; "HTMLWebpackPlugin"; "CopyPlugin"; "MiniCssExtractPlugin"].
Proof.
  split.
  { unfold frame, module_exports, jsLoaders. rewrite !isDev_isProd. simpl.
    by destruct (isProd signal), (isProd signal'). }
  split; [reflexivity|]. split; [reflexivity|].
  cbn [alias resolve module_exports]. split; [|split; [|split]].
  - rewrite !dom_insert_L, dom_empty_L. set_solver.
  - apply lookup_insert_eq.
  - rewrite lookup_insert_ne by done. apply lookup_insert_eq.
  - reflexivity.
Qed.

(** * Further properties of the module *)

(** ** The output names, for any extension *)

Lemma append_inj_l (p a b : string) : p +:+ a = p +:+ b -> a = b.
Proof. induction p as [|c p IH]; simpl; [done|]. intros [= H]. by apply IH. Qed.

Lemma append_length (a b : string) :
  String.length (a +:+ b) = (String.length a + String.length b)%nat.
Proof. induction a as [|c a IH]; simpl; [done|by rewrite IH]. Qed.

Lemma append_assoc (a b c : string) : (a +:+ b) +:+ c = a +:+ b +:+ c.
Proof.
  apply RegExpFacts.chars_inj. by rewrite !RegExpFacts.chars_app, app_assoc.
Qed.

Lemma fileName_dev signal ext :
  isProd signal = false -> fileName signal ext = "bundle." +:+ ext.
Proof. intros H. unfold fileName. by rewrite isDev_isProd, H. Qed.

Lemma fileName_prod signal ext :
  isProd signal = true -> fileName signal ext = "bundle.[hash]." +:+ ext.
Proof. intros H. unfold fileName. by rewrite isDev_isProd, H. Qed.

(** X1.  Under one signal two extensions give the same name only when
    they are the same extension: the bundles of different kinds never
    share a file name. *)
Theorem fileName_inj (signal : option string) (ext ext' : string) :
  fileName signal ext = fileName signal ext' <-> ext = ext'.
Proof.
  split; [|by intros ->].
  destruct (isProd signal) eqn:E.
  - rewrite !fileName_prod by done. apply append_inj_l.
  - rewrite !fileName_dev by done. apply append_inj_l.
Qed.

(** X2.  For one extension the names under two signals are equal exactly
    when the signals resolve to the same mode: the production name of a
    bundle is never its development name. *)
Theorem fileName_same_iff_mode (signal signal' : option string) (ext : string) :
  fileName signal ext = fileName signal' ext <->
  resolveMode signal = resolveMode signal'.
Proof.
  unfold resolveMode.
  destruct (isProd signal) eqn:E, (isProd signal') eqn:E';
    rewrite ?(fileName_prod _ _ E), ?(fileName_prod _ _ E'),
            ?(fileName_dev _ _ E), ?(fileName_dev _ _ E'); split; try done.
  - intros H. change ("bundle." +:+ "[hash]." +:+ ext = "bundle." +:+ ext) in H.
    apply append_inj_l, (f_equal String.length) in H.
    rewrite append_length in H. simpl in H. lia.
  - intros H. change ("bundle." +:+ ext = "bundle." +:+ "[hash]." +:+ ext) in H.
    apply append_inj_l, (f_equal String.length) in H.
    rewrite append_length in H. simpl in H. lia.
Qed.

Lemma has_placeholder_length (s : string) :
  has_placeholder s -> (6 <= String.length s)%nat.
Proof.
  intros (p & q & ->). rewrite !append_length. simpl. lia.
Qed.

Lemma has_placeholder_prepend (p s : string) :
  has_placeholder s -> has_placeholder (p +:+ s).
Proof.
  intros (p' & q & ->). exists (p +:+ p'), q. symmetry. apply append_assoc.
Qed.

(** No occurrence of the placeholder starts inside ["bundle."]. *)
Lemma has_placeholder_bundle (ext : string) :
  has_placeholder ("bundle." +:+ ext) -> has_placeholder ext.
Proof.
  intros (p & q & H).
  apply (f_equal String.list_ascii_of_string) in H.
  destruct p as [|? [|? [|? [|? [|? [|? [|? p]]]]]]];
    rewrite !RegExpFacts.chars_app in H; simpl in H; try congruence.
  injection H as _ _ _ _ _ _ _ H. exists p, q.
  apply RegExpFacts.chars_inj. by rewrite !RegExpFacts.chars_app.
Qed.

(** X3.  The name for an extension carries the placeholder [[hash]]
    exactly when the mode is Production or the extension itself carries
    it: a development name never gains a hash segment. *)
Theorem fileName_placeholder (signal : option string) (ext : string) :
  has_placeholder (fileName signal ext) <->
  resolveMode signal = Production \/ has_placeholder ext.
Proof.
  unfold resolveMode. destruct (isProd signal) eqn:E.
  - rewrite (fileName_prod _ _ E). split; [by left|]. intros _.
    by exists "bundle.", ("." +:+ ext).
  - rewrite (fileName_dev _ _ E). split.
    + intros H. right. by apply has_placeholder_bundle.
    + intros [|H]; [done|]. by apply has_placeholder_prepend.
Qed.

(** ** The configuration as a function of the signal *)

Lemma module_exports_isProd signal signal' dir pr :
  isProd signal = isProd signal' ->
  module_exports signal dir pr = module_exports signal' dir pr.
Proof.
  intros H. unfold module_exports, jsLoaders, fileName.
  by rewrite !isDev_isProd, H.
Qed.

(** X4.  Two signals give the same configuration exactly when they
    resolve to the same mode: every signal other than ["production"],
    the absent one included, gives the development configuration, and
    that one is not the production configuration. *)
Theorem module_exports_same_iff_mode
    (signal signal' : option string) (dir : string)
    (pr : string -> string -> string) :
  module_exports signal dir pr = module_exports signal' dir pr <->
  resolveMode signal = resolveMode signal'.
Proof.
  split.
  - intros H. apply (f_equal (fun c => hot (devServer c))) in H.
    cbn [hot devServer module_exports] in H. rewrite !isDev_isProd in H.
    unfold resolveMode. by destruct (isProd signal), (isProd signal').
  - intros H. apply module_exports_isProd. unfold resolveMode in H.
    by destruct (isProd signal), (isProd signal').
Qed.

(** Case analysis on the membership [H] in a list literal. *)
Ltac cases_in H :=
  apply list_elem_of_In in H; simpl in H;
  repeat (destruct H as [H|H]); try (by destruct H);
  try discriminate H; try (injection H as H); subst.

Lemma no_placeholder_short (s : string) :
  (String.length s < 6)%nat -> ~ has_placeholder s.
Proof. intros Hs H%has_placeholder_length. lia. Qed.

(** X5.  A configuration is never mixed.  With [hot] on, the source map,
    [hmr] and the lint loader are on, both minify flags are off and
    neither bundle name carries the placeholder; with [hot] off it is the
    other way round.  [hot] is on exactly in development. *)
Theorem options_agree
    (signal : option string) (dir : string) (pr : string -> string -> string) :
  (hot (devServer (module_exports signal dir pr)) = true <->
   resolveMode signal = Development) /\
  (devtool (module_exports signal dir pr) = DevtoolName "source-map" <->
   hot (devServer (module_exports signal dir pr)) = true) /\
  (devtool (module_exports signal dir pr) = DevtoolFalse <->
   hot (devServer (module_exports signal dir pr)) = false) /\
  (has_placeholder (filename (output (module_exports signal dir pr))) <->
   hot (devServer (module_exports signal dir pr)) = false) /\
  (forall (t : string) (m : Minify),
     HTMLWebpackPlugin t m ∈ plugins (module_exports signal dir pr) ->
     removeComments m = negb (hot (devServer (module_exports signal dir pr))) /\
     collapseWhitespace m = negb (hot (devServer (module_exports signal dir pr)))) /\
  (forall f : string,
     MiniCssExtractPlugin f ∈ plugins (module_exports signal dir pr) ->
     (has_placeholder f <-> hot (devServer (module_exports signal dir pr)) = false)) /\
  (forall (r : Rule) (l : LoaderRef) (h a : bool),
     r ∈ module_rules (module_exports signal dir pr) ->
     UseObject l (ExtractOptions h a) ∈ use r ->
     h = hot (devServer (module_exports signal dir pr))) /\
  ((exists r : Rule,
      r ∈ module_rules (module_exports signal dir pr) /\
      UseString "eslint-loader" ∈ use r) <->
   hot (devServer (module_exports signal dir pr)) = true).
Proof.
  pose proof (fileName_placeholder signal "js") as Hjs.
  pose proof (fileName_placeholder signal "css") as Hcss.
  assert (Hshort : forall s, (String.length s < 6)%nat -> ~ has_placeholder s)
    by apply no_placeholder_short.
  cbn [hot devServer devtool filename output plugins module_rules module_exports].
  unfold resolveMode in *. unfold jsLoaders. rewrite !isDev_isProd.
  destruct (isProd signal); cbn [negb].
  - split; [done|]. split; [done|]. split; [done|].
    split; [split; [done|intros _; apply Hjs; by left]|].
    split. { intros t m H. cases_in H. by split. }
    split. { intros f H. cases_in H.
             split; [done|intros _; apply Hcss; by left]. }
    split. { intros r l h a Hr Hu. cases_in Hr; cases_in Hu. done. }
    split; [|done]. intros (r & Hr & Hu). cases_in Hr; cases_in Hu.
  - split; [done|]. split; [done|]. split; [done|].
    split. { split; [|done]. intros H%Hjs. destruct H as [|H]; [done|].
             apply Hshort in H; [done|simpl; lia]. }
    split. { intros t m H. cases_in H. by split. }
    split. { intros f H. cases_in H.
             split; [|done]. intros H%Hcss. destruct H as [|H]; [done|].
             apply Hshort in H; [done|simpl; lia]. }
    split. { intros r l h a Hr Hu. cases_in Hr; cases_in Hu. done. }
    split; [done|]. intros _. eexists. split.
    + apply list_elem_of_further, list_elem_of_here.
    + simpl. apply list_elem_of_further, list_elem_of_here.
Qed.

(** ** The two rules on file names *)




(** X6.  No file name is accepted by the patterns of both rules: a name
    is a style file, a script file, or neither. *)
Theorem rule_tests_disjoint
    (signal : option string) (dir : string) (pr : string -> string -> string) :
  exists r1 r2 : Rule,
    module_rules (module_exports signal dir pr) = [r1; r2] /\
    forall s : string,
      RegExp.test (test r1) s && RegExp.test (test r2) s = false.
Proof.
  do 2 eexists. split; [reflexivity|]. cbn [test]. intros s.
  apply not_true_is_false. intros [H1 H2]%andb_true_iff.
  apply RegExpFacts.re_style_spec in H1 as (p & c1 & c2 & c3 & c4 & -> & _ & H & _).
  apply RegExpFacts.re_js_spec in H2 as (p' & H2).
  apply (f_equal String.list_ascii_of_string) in H2.
  rewrite !RegExpFacts.chars_app in H2. simpl in H2.
  assert (H2' : (String.list_ascii_of_string p ++ ["."%char; c1]) ++ [c2; c3; c4] =
                String.list_ascii_of_string p' ++ ["."; "j"; "s"]%char)
    by (rewrite <- app_assoc; exact H2).
  apply app_inj_2 in H2' as [_ [= -> _ _]]; [|done].
  cases_in H.
Qed.

Lemma canonicalize_idemp (c : ascii) :
  RegExp.canonicalize true (RegExp.canonicalize true c) = RegExp.canonicalize true c.
Proof. by destruct c as [[] [] [] [] [] [] [] []]. Qed.

Lemma search_upcase dol ats (s : list ascii) :
  RegExp.search true dol ats (map (RegExp.canonicalize true) s) =
  RegExp.search true dol ats s.
Proof.
  assert (Hm : forall ats s,
    RegExp.match_here true dol ats (map (RegExp.canonicalize true) s) =
    RegExp.match_here true dol ats s).
  { clear. induction ats as [|a ats IH]; intros [|c s]; simpl; try done.
    rewrite IH. f_equal. destruct a as [x|xs]; simpl.
    - unfold RegExp.char_eq. by rewrite canonicalize_idemp.
    - induction xs as [|x xs IHx]; simpl; [done|].
      rewrite IHx. unfold RegExp.char_eq at 1 3. by rewrite canonicalize_idemp. }
  induction s as [|c s IH]; [done|].
  change (RegExp.search true dol ats (map (RegExp.canonicalize true) (c :: s)))
    with (RegExp.match_here true dol ats (map (RegExp.canonicalize true) (c :: s))
          || RegExp.search true dol ats (map (RegExp.canonicalize true) s)).
  by rewrite Hm, IH.
Qed.

Lemma upcase_app (a b : string) : upcase (a +:+ b) = upcase a +:+ upcase b.
Proof.
  unfold upcase. by rewrite RegExpFacts.chars_app, map_app, RegExpFacts.of_chars_app.
Qed.

(** X7.  The style pattern does not tell the case of letters: a name
    and the same name in upper case are accepted alike.  The script
    pattern does: a name that ends with [.js], written in upper case, is
    rejected. *)
Theorem style_test_ignores_case
    (signal : option string) (dir : string) (pr : string -> string -> string) :
  exists r1 r2 : Rule,
    module_rules (module_exports signal dir pr) = [r1; r2] /\
    (forall s : string, RegExp.test (test r1) (upcase s) = RegExp.test (test r1) s) /\
    (forall p : string, RegExp.test (test r2) (upcase (p +:+ ".js")) = false).
Proof.
  do 2 eexists. split; [reflexivity|]. cbn [test]. split.
  - intros s. unfold RegExp.test, upcase.
    rewrite String.list_ascii_of_string_of_list_ascii. apply search_upcase.
  - intros p. rewrite upcase_app. apply not_true_is_false. intros H.
    apply RegExpFacts.re_js_spec in H as (p' & H).
    apply (f_equal String.list_ascii_of_string) in H.
    rewrite !RegExpFacts.chars_app in H.
    apply app_inj_2 in H as [_ H]; [discriminate H|done].
Qed.


(** ** Directories *)

(** X9.  For every host the alias ["@"] is bound to the context
    directory, and every pattern of the copy plugin has the output
    directory as its destination: the icon is written beside the bundle. *)
Theorem directories_agree
    (signal : option string) (dir : string) (pr : string -> string -> string) :
  alias (resolve (module_exports signal dir pr)) !! "@" =
    Some (context (module_exports signal dir pr)) /\
  forall (pats : list CopyPattern) (pat : CopyPattern),
    CopyPlugin pats ∈ plugins (module_exports signal dir pr) ->
    pat ∈ pats ->
    to pat = path (output (module_exports signal dir pr)).
Proof.
  split; [apply lookup_insert_eq|].
  intros pats pat H Hp. cbn [plugins module_exports] in H.
  cases_in H. cases_in Hp.
Qed.
